(** * Translator backend: the handlers of [main.py]

    A shallow embedding of the FastAPI handlers [translate], [list_themes]
    and [test_database], together with the request model
    [TranslateRequest], and the properties of their request/response
    contract. *)

From Stdlib Require Import ZArith NArith QArith String Ascii List DecimalString.
From Stdlib Require Import SpecFloat.
From stdpp Require Import gmap list fin_maps.

Local Open Scope Z_scope.
Local Set Warnings "-register-all".

(** ** Python strings

    A Python [str] is a sequence of Unicode code points: [len], slicing
    and [strip] all count code points, not bytes. *)

Abbreviation str := (list N).

(** The code points of an ASCII literal. *)
Definition lit (s : string) : str :=
  List.map N_of_ascii (list_ascii_of_string s).
Arguments lit s%_string.

(** The non-ASCII literals of [test_database]. *)
Definition CHECK_MARK : str := [0x2705%N].
Definition CROSS_MARK : str := [0x274C%N].
Definition WARNING_SIGN : str := [0x26A0%N; 0xFE0F%N].

(** [str.isspace] on one code point: CPython's [_PyUnicode_IsWhitespace]. *)
Definition isspace (c : N) : bool :=
  ((0x09 <=? c) && (c <=? 0x0D) || (0x1C <=? c) && (c <=? 0x20)
   || (c =? 0x85) || (c =? 0xA0) || (c =? 0x1680)
   || (0x2000 <=? c) && (c <=? 0x200A)
   || (c =? 0x2028) || (c =? 0x2029) || (c =? 0x202F)
   || (c =? 0x205F) || (c =? 0x3000))%N.

Fixpoint lstrip (s : str) : str :=
  match s with
  | c :: s' => if isspace c then lstrip s' else s
  | [] => []
  end.

Definition rstrip (s : str) : str := rev (lstrip (rev s)).

(** [s.strip()] with no argument. *)
Definition strip (s : str) : str := rstrip (lstrip s).

(** [bool(s)] for a string. *)
Definition nonempty (s : str) : bool :=
  match s with [] => false | _ => true end.

(** ** Python values

    The values that travel through the handlers: what [resp.json()]
    returns, what a stored document holds, what a handler returns.  A
    [dict] with string keys is a finite map. *)

Inductive value :=
| VNone
| VBool (b : bool)
| VInt (z : Z)
| VFloat (f : spec_float)
| VStr (s : str)
| VList (l : list value)
| VDict (d : gmap str value)
| VObjectId (hex : str).

(** Truth value testing, as [if not translated] uses it. *)
Definition truthy (v : value) : bool :=
  match v with
  | VNone => false
  | VBool b => b
  | VInt z => negb (z =? 0)
  | VFloat (S754_zero _) => false
  | VFloat _ => true
  | VStr s => nonempty s
  | VList l => match l with [] => false | _ => true end
  | VDict d => negb (bool_decide (d = ∅))
  | VObjectId _ => true
  end.

Definition type_name (v : value) : str :=
  match v with
  | VNone => lit "NoneType"
  | VBool _ => lit "bool"
  | VInt _ => lit "int"
  | VFloat _ => lit "float"
  | VStr _ => lit "str"
  | VList _ => lit "list"
  | VDict _ => lit "dict"
  | VObjectId _ => lit "ObjectId"
  end.

(** ** Exceptions and the handler monad *)

(** The exceptions the handlers can see, by the classes their [except]
    clauses tell apart.  Every exception of the model derives from
    [Exception]; [Timeout] stands for [requests.Timeout] and its
    subclasses, [PyException] for any other class, kept by its [str()]. *)
Inductive exn :=
| HTTPException (status_code : Z) (detail : str)
| Timeout (msg : str)
| PyException (msg : str).

(** What the handlers use of the runtime without fixing it: the [str()]
    of an [HTTPException] (Starlette's [__str__]) and the [str()] of
    floats and containers. *)
Class PyRuntime := {
  str_HTTPException : Z -> str -> str;
  str_compound : value -> str
}.

(** Decimal digits of an integer, as [str(int)] prints them. *)
Definition str_int (z : Z) : str := lit (NilZero.string_of_int (Z.to_int z)).

Section Str.
Context `{PyRuntime}.

(** [str(e)] *)
Definition str_exn (e : exn) : str :=
  match e with
  | HTTPException c d => str_HTTPException c d
  | Timeout m => m
  | PyException m => m
  end.

(** [str(v)] *)
Definition py_str (v : value) : str :=
  match v with
  | VNone => lit "None"
  | VBool true => lit "True"
  | VBool false => lit "False"
  | VInt z => str_int z
  | VStr s => s
  | VObjectId hex => hex
  | VFloat _ | VList _ | VDict _ => str_compound v
  end.
End Str.

Inductive result (A : Type) :=
| Return (a : A)
| Raise (e : exn).
Arguments Return {A} a.
Arguments Raise {A} e.

(** A computation over a state [S] that returns or raises; the state
    reached when an exception is raised is kept, as in Python. *)
Definition M (S A : Type) : Type := S -> result A * S.

Definition ret {S A} (a : A) : M S A := fun s => (Return a, s).
Definition raise {S A} (e : exn) : M S A := fun s => (Raise e, s).
Definition bind {S A B} (c : M S A) (k : A -> M S B) : M S B :=
  fun s => match c s with
           | (Return a, s') => k a s'
           | (Raise e, s') => (Raise e, s')
           end.
Definition try_except {S A} (body : M S A) (handler : exn -> M S A) : M S A :=
  fun s => match body s with
           | (Return a, s') => (Return a, s')
           | (Raise e, s') => handler e s'
           end.
Definition lift {S A} (r : result A) : M S A := fun s => (r, s).

Notation "'let!' x ':=' c 'in' k" := (bind c (fun x => k))
  (at level 10, x name, c at level 100, k at level 200).

(** ** The HTTP client

    [requests.post(url, data=..., timeout=...)] as the handler sees it. *)

Record PostCall := {
  url : str;
  data : list (str * str);
  timeout : Z
}.

Record Response := {
  resp_status_code : Z;
  resp_text : str;
  resp_json : result value   (* what [resp.json()] does *)
}.

(** What the network does with one request: the client fails with an
    exception (connection refused, name resolution), the provider stays
    silent for ever, or it replies.  A reply reaches the client over
    several waits on its socket, one for the connection and one for each
    part of the reply; [waits] lists them in seconds, and the call lasts
    their sum. *)
Inductive NetOutcome :=
| NetError (e : exn)
| NetSilence
| NetReply (waits : list Q) (resp : Response).


(** No single wait is longer than [seconds]. *)
Definition within (waits : list Q) (seconds : Z) : bool :=
  forallb (fun w => Qle_bool w (inject_Z seconds)) waits.

Definition READ_TIMED_OUT : str := lit "Read timed out.".

(** [timeout] bounds each wait of the client on its socket, not the time
    of the whole call: the client gives up with [requests.Timeout] as
    soon as one wait is longer than [timeout] seconds.  Each call is
    recorded in the state. *)
Definition requests_post (net : PostCall -> NetOutcome) (c : PostCall)
  : M (list PostCall) Response :=
  fun log =>
    (match net c with
     | NetError e => Raise e
     | NetSilence => Raise (Timeout READ_TIMED_OUT)
     | NetReply waits resp =>
         if within waits (timeout c) then Return resp
         else Raise (Timeout READ_TIMED_OUT)
     end, log ++ [c]).


(** [data.get(key)]: only a dict has the method. *)
Definition get {S} (v : value) (key : str) : M S value :=
  match v with
  | VDict d => ret (default VNone (d !! key))
  | _ => raise (PyException
                  (lit "'" ++ type_name v ++ lit "' object has no attribute 'get'"))
  end.

(** ** The request model [TranslateRequest] *)

Record TranslateRequest := {
  req_text : str;
  req_source : option str;
  req_target : str
}.

Inductive validation_error :=
| Missing (field : str)
| StringType (field : str)
| StringTooShort (field : str)
| ModelType.

(** [text: str = Field(..., min_length=1)] *)
Definition validate_text (body : gmap str value) : validation_error + str :=
  match body !! lit "text" with
  | None => inl (Missing (lit "text"))
  | Some (VStr t) =>
      if (1 <=? length t)%nat then inr t else inl (StringTooShort (lit "text"))
  | Some _ => inl (StringType (lit "text"))
  end.

(** [source: Optional[str] = Field("auto", ...)] *)
Definition validate_source (body : gmap str value)
  : validation_error + option str :=
  match body !! lit "source" with
  | None => inr (Some (lit "auto"))
  | Some VNone => inr None
  | Some (VStr s) => inr (Some s)
  | Some _ => inl (StringType (lit "source"))
  end.

(** [target: str = Field(...)] *)
Definition validate_target (body : gmap str value) : validation_error + str :=
  match body !! lit "target" with
  | None => inl (Missing (lit "target"))
  | Some (VStr t) => inr t
  | Some _ => inl (StringType (lit "target"))
  end.

Definition errors_of {A} (r : validation_error + A) : list validation_error :=
  match r with inl e => [e] | inr _ => [] end.

(** Validation of the JSON body against the model: every field is
    checked and all errors are reported. *)
Definition TranslateRequest_validate (body : value)
  : list validation_error + TranslateRequest :=
  match body with
  | VDict d =>
      match validate_text d, validate_source d, validate_target d with
      | inr t, inr s, inr g =>
          inr {| req_text := t; req_source := s; req_target := g |}
      | rt, rs, rg => inl (errors_of rt ++ errors_of rs ++ errors_of rg)
      end
  | _ => inl [ModelType]
  end.

(** ** [POST /translate] *)

Definition TRANSLATE_URL : str := lit "https://libretranslate.de/translate".

(** [x or "auto"] for an optional string. *)
Definition or_auto (x : option str) : str :=
  match x with
  | Some s => if nonempty s then s else lit "auto"
  | None => lit "auto"
  end.

(** The outbound call of the handler. *)
Definition translate_call (req : TranslateRequest) : PostCall :=
  {| url := TRANSLATE_URL;
     data := [ (lit "q", req_text req);
               (lit "source", or_auto (req_source req));
               (lit "target", req_target req);
               (lit "format", lit "text") ];
     timeout := 15 |}.

Section Translate.
Context `{PyRuntime}.
Variable net : PostCall -> NetOutcome.

(** The suite of the [try] statement. *)
Definition translate_try (req : TranslateRequest) : M (list PostCall) value :=
  let! resp := requests_post net (translate_call req) in
  if negb (resp_status_code resp =? 200) then
    raise (HTTPException 502
             (lit "Translation service error: " ++ firstn 200 (resp_text resp)))
  else
    let! data := lift (resp_json resp) in
    let! translated := get data (lit "translatedText") in
    if negb (truthy translated) then
      raise (HTTPException 502 (lit "Invalid response from translation service"))
    else
      ret (VDict {[ lit "translated" := translated ]}).

(** The [except] clauses, in their order. *)
Definition translate_except (e : exn) : M (list PostCall) value :=
  match e with
  | Timeout _ => raise (HTTPException 504 (lit "Translation service timeout"))
  | _ => raise (HTTPException 500 (str_exn e))
  end.

Definition translate (req : TranslateRequest) : M (list PostCall) value :=
  if negb (nonempty (strip (req_text req))) then
    raise (HTTPException 400 (lit "Text cannot be empty"))
  else
    try_except (translate_try req) translate_except.
End Translate.

(** What the framework sends back for one request: the body was rejected
    by the request model, the handler raised, or the handler returned. *)
Inductive outcome :=
| Rejected (errors : list validation_error)
| Raised (e : exn)
| Returned (v : value).

Definition http_status (o : outcome) : Z :=
  match o with
  | Rejected _ => 422
  | Raised (HTTPException c _) => c
  | Raised _ => 500
  | Returned _ => 200
  end.

Definition outcome_of (r : result value) : outcome :=
  match r with Return v => Returned v | Raise e => Raised e end.

Section Endpoint.
Context `{PyRuntime}.
Variable net : PostCall -> NetOutcome.

(** The route: the body is validated into a [TranslateRequest] before
    the handler is entered.  The second component lists the outbound
    calls made while serving the request. *)
Definition post_translate (body : value) : outcome * list PostCall :=
  match TranslateRequest_validate body with
  | inl errors => (Rejected errors, [])
  | inr req => let (r, calls) := translate net req [] in (outcome_of r, calls)
  end.
End Endpoint.

(** ** [GET /themes]

    The documents are dict objects that the handler changes in place, so
    they live in a store and the list holds references to them; the same
    object may occur twice in the list. *)

Abbreviation loc := positive.
Abbreviation heap := (gmap loc (gmap str value)).

Definition modify {S} (f : S -> S) : M S unit := fun s => (Return tt, f s).

(** [for x in l: body(x)] *)
Fixpoint for_each {S A} (l : list A) (body : A -> M S unit) : M S unit :=
  match l with
  | [] => ret tt
  | x :: l' => let! _ := body x in for_each l' body
  end.

(** The body of the loop on one dict:
    [if "_id" in d: d["id"] = str(d["_id"]); del d["_id"]]. *)
Definition rekey `{PyRuntime} (d : gmap str value) : gmap str value :=
  match d !! lit "_id" with
  | Some v => delete (lit "_id") (<[lit "id" := VStr (py_str v)]> d)
  | None => d
  end.

(** The object behind a reference, as the response is serialised. *)
Definition deref (h : heap) (r : loc) : value := VDict (default ∅ (h !! r)).

Section Themes.
Context `{PyRuntime}.

(** [get_documents] is imported from the module [database], which is not
    part of the handlers' file: it is a parameter, a computation that
    leaves the documents in the store and returns references to them, or
    raises. *)
Variable get_documents : str -> option Z -> M heap (list loc).

Definition list_themes (limit : option Z) : M heap value :=
  try_except
    (let! docs := get_documents (lit "theme") limit in
     let! _ := for_each docs (fun d => modify (alter rekey d)) in
     fun h => (Return (VDict {[ lit "items" := VList (deref h <$> docs) ]}), h))
    (fun e => raise (HTTPException 500 (str_exn e))).

(** The route: [limit: Optional[int] = 50]. *)
Definition get_themes (limit : option Z) : M heap value :=
  list_themes (Some (default 50 limit)).
End Themes.

(** ** [GET /test] *)

(** The handle [db] of the module [database], by what the handler asks
    of it.  [hasattr(db, 'name')] is true, or false when the attribute is
    missing or its access raises [AttributeError], or lets through any
    other exception that the access raises; [db.name], which is
    evaluated when [hasattr] was true, returns a value or raises; and
    [db.list_collection_names()] returns a list or raises. *)
Record Database := {
  db_hasattr_name : result bool;
  db_name : result value;
  db_list_collection_names : result (list value)
}.

(** The assignment to [database_name] in the probe goes through: as far
    as [hasattr] tells the handle has no attribute [name], or it has one
    and reading it succeeds. *)
Definition name_assigned (d : Database) : Prop :=
  db_hasattr_name d = Return false
  \/ (db_hasattr_name d = Return true /\ exists v, db_name d = Return v).

Definition set_item (k : str) (v : value) : M (gmap str value) unit :=
  modify (insert k v).

(** [bool(os.getenv(k))] *)
Definition env_truthy (getenv : str -> option str) (k : str) : bool :=
  match getenv k with
  | Some s => nonempty s
  | None => false
  end.

Section TestDatabase.
Context `{PyRuntime}.
Variable db : option Database.
Variable getenv : str -> option str.

Definition initial_response : gmap str value :=
  {[ lit "backend" := VStr (CHECK_MARK ++ lit " Running");
     lit "database" := VStr (CROSS_MARK ++ lit " Not Available");
     lit "database_url" := VNone;
     lit "database_name" := VNone;
     lit "connection_status" := VStr (lit "Not Connected");
     lit "collections" := VList [] ]}.

Definition test_database_probe : M (gmap str value) unit :=
  try_except
    (match db with
     | Some d =>
         let! _ := set_item (lit "database") (VStr (CHECK_MARK ++ lit " Available")) in
         let! _ := set_item (lit "database_url") (VStr (CHECK_MARK ++ lit " Configured")) in
         let! has_name := lift (db_hasattr_name d) in
         let! name := (if has_name : bool then lift (db_name d)
                       else ret (VStr (CHECK_MARK ++ lit " Connected"))) in
         let! _ := set_item (lit "database_name") name in
         let! _ := set_item (lit "connection_status") (VStr (lit "Connected")) in
         try_except
           (let! collections := lift (db_list_collection_names d) in
            let! _ := set_item (lit "collections") (VList (firstn 10 collections)) in
            set_item (lit "database")
              (VStr (CHECK_MARK ++ lit " Connected & Working")))
           (fun e =>
              set_item (lit "database")
                (VStr (WARNING_SIGN ++ lit "  Connected but Error: "
                       ++ firstn 50 (str_exn e))))
     | None =>
         set_item (lit "database")
           (VStr (WARNING_SIGN ++ lit "  Available but not initialized"))
     end)
    (fun e =>
       set_item (lit "database")
         (VStr (CROSS_MARK ++ lit " Error: " ++ firstn 50 (str_exn e)))).

Definition test_database : gmap str value :=
  let response := snd (test_database_probe initial_response) in
  let response :=
    <[lit "database_url" :=
        VStr (if env_truthy getenv (lit "DATABASE_URL")
              then CHECK_MARK ++ lit " Set" else CROSS_MARK ++ lit " Not Set")]>
      response in
  let response :=
    <[lit "database_name" :=
        VStr (if env_truthy getenv (lit "DATABASE_NAME")
              then CHECK_MARK ++ lit " Set" else CROSS_MARK ++ lit " Not Set")]>
      response in
  response.
End TestDatabase.

(** ** [POST /themes] *)

(** The request model [ThemeCreate]. *)
Record ThemeCreate := {
  theme_name : str;
  theme_primary : str;
  theme_background_from : str;
  theme_background_to : str;
  theme_text : str;
  theme_mode : str;
  theme_font : option str
}.

(** A field [k: str], required when it has no default. *)
Definition validate_str (body : gmap str value) (k : str) (dflt : option str)
  : validation_error + str :=
  match body !! k with
  | None => match dflt with Some v => inr v | None => inl (Missing k) end
  | Some (VStr s) => inr s
  | Some _ => inl (StringType k)
  end.

(** A field [k: Optional[str] = dflt]. *)
Definition validate_optional_str (body : gmap str value) (k : str) (dflt : str)
  : validation_error + option str :=
  match body !! k with
  | None => inr (Some dflt)
  | Some VNone => inr None
  | Some (VStr s) => inr (Some s)
  | Some _ => inl (StringType k)
  end.

Definition ThemeCreate_validate (body : value)
  : list validation_error + ThemeCreate :=
  match body with
  | VDict d =>
      match validate_str d (lit "name") None,
            validate_str d (lit "primary") (Some (lit "#4f46e5")),
            validate_str d (lit "background_from") (Some (lit "#ffffff")),
            validate_str d (lit "background_to") (Some (lit "#f5f3ff")),
            validate_str d (lit "text") (Some (lit "#111827")),
            validate_str d (lit "mode") (Some (lit "light")),
            validate_optional_str d (lit "font") (lit "Inter") with
      | inr n, inr p, inr bf, inr bt, inr t, inr m, inr f =>
          inr {| theme_name := n; theme_primary := p;
                 theme_background_from := bf; theme_background_to := bt;
                 theme_text := t; theme_mode := m; theme_font := f |}
      | rn, rp, rbf, rbt, rt, rm, rf =>
          inl (errors_of rn ++ errors_of rp ++ errors_of rbf ++ errors_of rbt
               ++ errors_of rt ++ errors_of rm ++ errors_of rf)
      end
  | _ => inl [ModelType]
  end.

(** [theme.model_dump()]: a fresh dict of the seven fields. *)
Definition model_dump (theme : ThemeCreate) : gmap str value :=
  {[ lit "name" := VStr (theme_name theme);
     lit "primary" := VStr (theme_primary theme);
     lit "background_from" := VStr (theme_background_from theme);
     lit "background_to" := VStr (theme_background_to theme);
     lit "text" := VStr (theme_text theme);
     lit "mode" := VStr (theme_mode theme);
     lit "font" := match theme_font theme with
                   | Some f => VStr f
                   | None => VNone
                   end ]}.

Section CreateTheme.
Context `{PyRuntime} {S : Type}.

(** [create_document] is imported from the module [database], like
    [get_documents]: a parameter, a computation on the state of the store
    that returns the inserted id or raises. *)
Variable create_document : str -> gmap str value -> M S value.

(** In [{"id": inserted_id, **theme.model_dump()}] the entries of the
    dump come last and win over an equal key. *)
Definition create_theme (theme : ThemeCreate) : M S value :=
  try_except
    (let! inserted_id := create_document (lit "theme") (model_dump theme) in
     ret (VDict (model_dump theme ∪ {[ lit "id" := inserted_id ]})))
    (fun e => raise (HTTPException 500 (str_exn e))).

(** The route: the body is validated into a [ThemeCreate] before the
    handler is entered. *)
Definition post_themes (body : value) (s : S) : outcome * S :=
  match ThemeCreate_validate body with
  | inl errors => (Rejected errors, s)
  | inr theme => let (r, s') := create_theme theme s in (outcome_of r, s')
  end.
End CreateTheme.

(** A runtime to evaluate the handlers on concrete inputs: an
    [HTTPException] prints as Starlette prints it, status code, colon,
    detail.  The [str()] of floats and containers, which no example
    below reaches, is a placeholder. *)
Definition starlette_str (c : Z) (d : str) : str :=
  str_int c ++ lit ": " ++ d.

#[local] Instance sample_runtime : PyRuntime :=
  {| str_HTTPException := starlette_str;
     str_compound := fun _ => lit "<object>" |}.

(** Sample requests and providers. *)
Definition body_of (text : str) : value :=
  VDict {[ lit "text" := VStr text; lit "target" := VStr (lit "es") ]}.

Definition request_of (text : str) : TranslateRequest :=
  {| req_text := text; req_source := Some (lit "auto"); req_target := lit "es" |}.

Definition hello_es : value := body_of (lit "Hello").
Definition blank_es : value := body_of (lit "  ").
Definition empty_es : value := body_of [].

Definition reply_after (wait : Q) (status : Z) (body : str) (js : result value)
  : PostCall -> NetOutcome :=
  fun _ => NetReply [wait] {| resp_status_code := status; resp_text := body;
                            resp_json := js |}.

Definition reply_with := reply_after 1.

Definition EXPECTING_VALUE : str :=
  lit "Expecting value: line 1 column 1 (char 0)".

Definition unavailable : PostCall -> NetOutcome :=
  reply_with 503 (lit "Service Unavailable") (Raise (PyException EXPECTING_VALUE)).

Definition QUOTE : str := [34%N].

Definition hola : PostCall -> NetOutcome :=
  reply_with 200
    (lit "{" ++ QUOTE ++ lit "translatedText" ++ QUOTE ++ lit ": "
     ++ QUOTE ++ lit "Hola" ++ QUOTE ++ lit "}")
    (Return (VDict {[ lit "translatedText" := VStr (lit "Hola") ]})).

Definition empty_object : PostCall -> NetOutcome :=
  reply_with 200 (lit "{}") (Return (VDict ∅)).

Definition not_json : PostCall -> NetOutcome :=
  reply_with 200 (lit "<html>") (Raise (PyException EXPECTING_VALUE)).



Definition CONNECTION_REFUSED : str := lit "Connection refused".

Definition refused : PostCall -> NetOutcome :=
  fun _ => NetError (PyException CONNECTION_REFUSED).

(** Sample stores: one that returns two documents, the first of them
    twice, and one that fails. *)
Definition dark_theme : gmap str value :=
  {[ lit "_id" := VObjectId (lit "65a1f0c2e4b0a1b2c3d4e5f6");
     lit "name" := VStr (lit "dark") ]}.

Definition plain_theme : gmap str value :=
  {[ lit "name" := VStr (lit "plain") ]}.

Definition two_themes : str -> option Z -> M heap (list loc) :=
  fun _ _ h =>
    (Return [1%positive; 2%positive; 1%positive],
     <[1%positive := dark_theme]> (<[2%positive := plain_theme]> h)).

Definition DATABASE_NOT_AVAILABLE : str := lit "Database not available".

Definition no_store : str -> option Z -> M heap (list loc) :=
  fun _ _ h => (Raise (PyException DATABASE_NOT_AVAILABLE), h).

(** An environment where every variable is set to the empty string. *)
Definition empty_env : str -> option str := fun _ => Some [].

(** A provider whose [translatedText] is a number. *)
Definition forty_two : PostCall -> NetOutcome :=
  reply_with 200 (lit "{}")
    (Return (VDict {[ lit "translatedText" := VInt 42 ]})).

(** A client that times out while connecting. *)
Definition CONNECT_TIMED_OUT : str := lit "Connection timed out.".

Definition connect_timeout : PostCall -> NetOutcome :=
  fun _ => NetError (Timeout CONNECT_TIMED_OUT).

(** Sample stores for [create_document]: the state counts the documents
    inserted so far and the id is the new count. *)
Definition counting_store : str -> gmap str value -> M nat value :=
  fun _ _ n => (Return (VStr (str_int (Z.of_nat (Datatypes.S n)))), Datatypes.S n).

Definition failing_store : str -> gmap str value -> M nat value :=
  fun _ _ n => (Raise (PyException DATABASE_NOT_AVAILABLE), n).

Definition ocean_body : gmap str value :=
  {[ lit "name" := VStr (lit "Ocean");
     lit "mode" := VStr (lit "dark");
     lit "font" := VNone;
     lit "owner" := VStr (lit "me") ]}.

Definition ocean_theme : ThemeCreate :=
  {| theme_name := lit "Ocean"; theme_primary := lit "#4f46e5";
     theme_background_from := lit "#ffffff";
     theme_background_to := lit "#f5f3ff";
     theme_text := lit "#111827"; theme_mode := lit "dark";
     theme_font := None |}.

(** Sample database handles. *)
Definition twelve_collections : list value :=
  (fun n => VStr (str_int (Z.of_nat n))) <$> seq 0 12.

Definition working_db : Database :=
  {| db_hasattr_name := Return true;
     db_name := Return (VStr (lit "themes"));
     db_list_collection_names := Return twelve_collections |}.

Definition SERVER_SELECTION_FAILED : str := lit "server selection failed".

(** A handle whose attribute [name] raises an error that [hasattr] lets
    through. *)
Definition broken_name_db : Database :=
  {| db_hasattr_name := Raise (PyException SERVER_SELECTION_FAILED);
     db_name := Raise (PyException SERVER_SELECTION_FAILED);
     db_list_collection_names := Return [] |}.

(** A handle without the attribute [name], or whose access to it raises
    [AttributeError]. *)
Definition nameless_db : Database :=
  {| db_hasattr_name := Return false;
     db_name := Raise (PyException (lit "'Database' object has no attribute 'name'"));
     db_list_collection_names := Return [VStr (lit "a")] |}.


(** * Properties *)

Example strip_spaces : strip (lit "  ") = [].
Proof. reflexivity. Qed.

Example strip_inner : strip (lit "  a b ") = lit "a b".
Proof. reflexivity. Qed.

Example dict_lookup :
  ({[ lit "translatedText" := VStr (lit "Hola") ]} : gmap str value)
    !! lit "translatedText" = Some (VStr (lit "Hola")).
Proof. vm_compute. reflexivity. Qed.


(** ** Whitespace *)

Lemma lstrip_nil_iff (s : str) : lstrip s = [] <-> forallb isspace s = true.
Proof.
  induction s as [|c s IH]; simpl; [tauto|].
  destruct (isspace c); simpl; [exact IH|].
  split; discriminate.
Qed.

Lemma lstrip_head (s : str) c t : lstrip s = c :: t -> isspace c = false.
Proof.
  induction s as [|a s IH]; simpl; [discriminate|].
  destruct (isspace a) eqn:Ha; [exact IH|].
  intros [= -> _]. exact Ha.
Qed.

Lemma forallb_rev {A} (f : A -> bool) (l : list A) :
  forallb f (rev l) = forallb f l.
Proof.
  induction l as [|a l IH]; simpl; [reflexivity|].
  rewrite forallb_app, IH. simpl. rewrite andb_true_r. apply andb_comm.
Qed.

(** [s.strip()] is empty exactly when [s] holds nothing but whitespace. *)
Lemma strip_nil_iff (s : str) : strip s = [] <-> forallb isspace s = true.
Proof.
  unfold strip, rstrip. split.
  - intros Hs. apply lstrip_nil_iff.
    destruct (lstrip s) as [|c t] eqn:Hl; [reflexivity|].
    apply (f_equal (@rev N)) in Hs. rewrite rev_involutive in Hs.
    change (rev []) with (@nil N) in Hs.
    apply lstrip_nil_iff in Hs. rewrite forallb_rev in Hs.
    simpl in Hs. rewrite (lstrip_head _ _ _ Hl) in Hs. discriminate.
  - intros Hs. apply lstrip_nil_iff in Hs. rewrite Hs. reflexivity.
Qed.

Lemma blank_iff (s : str) :
  nonempty (strip s) = false <-> forallb isspace s = true.
Proof.
  rewrite <- strip_nil_iff. destruct (strip s); simpl; split; congruence.
Qed.

(** ** The request model *)

Lemma validate_inv (body : value) (req : TranslateRequest) :
  TranslateRequest_validate body = inr req ->
  exists d, body = VDict d
    /\ d !! lit "text" = Some (VStr (req_text req))
    /\ req_text req <> []
    /\ d !! lit "target" = Some (VStr (req_target req))
    /\ validate_source d = inr (req_source req).
Proof.
  destruct body as [| | | | | |d|]; simpl; try discriminate.
  unfold validate_text, validate_target.
  destruct (d !! lit "text") as [[| | | |t| | |]|] eqn:Ht;
    try (destruct (validate_source d); discriminate).
  destruct t as [|c t]; simpl.
  { destruct (validate_source d); discriminate. }
  destruct (validate_source d) as [e|s] eqn:Hs; [discriminate|].
  destruct (d !! lit "target") as [[| | | |g| | |]|] eqn:Hg; try discriminate.
  intros [= <-]. simpl. exists d. repeat split; try assumption. discriminate.
Qed.

(** Closes a side condition on concrete data. *)
Ltac concrete :=
  first [ vm_compute; reflexivity
        | vm_compute; discriminate
        | repeat constructor; vm_compute; (reflexivity || discriminate) ].

(** ** The HTTP client *)

Lemma within_iff (waits : list Q) (seconds : Z) :
  within waits seconds = true
  <-> Forall (fun w => (w <= inject_Z seconds)%Q) waits.
Proof.
  unfold within. induction waits as [|w waits IH]; simpl.
  - split; [constructor | reflexivity].
  - rewrite andb_true_iff, IH, Qle_bool_iff. split.
    + intros [Hw Hr]. constructor; assumption.
    + intros Hall. inversion Hall; subst. split; assumption.
Qed.


(** ** The handler [translate] *)

Section TranslateLemmas.
Context `{PyRuntime}.
Variable net : PostCall -> NetOutcome.

Lemma translate_blank req log :
  nonempty (strip (req_text req)) = false ->
  translate net req log
  = (Raise (HTTPException 400 (lit "Text cannot be empty")), log).
Proof. intros Hb. unfold translate. rewrite Hb. reflexivity. Qed.

Lemma translate_accepted req log :
  nonempty (strip (req_text req)) = true ->
  translate net req log
  = try_except (translate_try net req) (translate_except) log.
Proof. intros Hb. unfold translate. rewrite Hb. reflexivity. Qed.

(** The suite of the [try] makes its one call first, whatever follows. *)
Lemma translate_try_calls req log :
  snd (translate_try net req log) = log ++ [translate_call req].
Proof.
  unfold translate_try, bind, requests_post.
  destruct (net (translate_call req)) as [e| |waits resp]; simpl;
    try reflexivity.
  destruct (within waits _); simpl; [|reflexivity].
  destruct (negb _); simpl; [reflexivity|].
  unfold lift. destruct (resp_json resp) as [v|e]; simpl; [|reflexivity].
  unfold get. destruct v; simpl; try reflexivity.
  destruct (negb _); reflexivity.
Qed.

Lemma translate_except_calls e log :
  snd (translate_except e log) = log.
Proof. destruct e; reflexivity. Qed.

Lemma translate_calls req log :
  nonempty (strip (req_text req)) = true ->
  snd (translate net req log) = log ++ [translate_call req].
Proof.
  intros Hb. rewrite translate_accepted by assumption.
  unfold try_except. pose proof (translate_try_calls req log) as Hc.
  destruct (translate_try net req log) as [[v|e] l]; simpl in *; [assumption|].
  rewrite translate_except_calls. assumption.
Qed.

(** What the [except] clauses make of an exception of the suite. *)
Lemma translate_raises req log e log' :
  nonempty (strip (req_text req)) = true ->
  translate_try net req log = (Raise e, log') ->
  translate net req log = translate_except e log'.
Proof.
  intros Hb He. rewrite translate_accepted by assumption.
  unfold try_except. rewrite He. reflexivity.
Qed.

Lemma translate_returns req log v log' :
  nonempty (strip (req_text req)) = true ->
  translate_try net req log = (Return v, log') ->
  translate net req log = (Return v, log').
Proof.
  intros Hb He. rewrite translate_accepted by assumption.
  unfold try_except. rewrite He. reflexivity.
Qed.

(** The client raises: the suite raises the same exception. *)
Lemma translate_try_net_error req log e :
  net (translate_call req) = NetError e ->
  translate_try net req log = (Raise e, log ++ [translate_call req]).
Proof.
  intros Hn. unfold translate_try, bind, requests_post. rewrite Hn. reflexivity.
Qed.

(** The provider replies in time: the suite goes on with the response. *)
Lemma translate_try_reply req log waits resp :
  net (translate_call req) = NetReply waits resp ->
  Forall (fun w => (w <= inject_Z 15)%Q) waits ->
  translate_try net req log
  = (if negb (resp_status_code resp =? 200) then
       raise (HTTPException 502
                (lit "Translation service error: "
                 ++ firstn 200 (resp_text resp)))
     else
       let! data := lift (resp_json resp) in
       let! translated := get data (lit "translatedText") in
       if negb (truthy translated) then
         raise (HTTPException 502
                  (lit "Invalid response from translation service"))
       else ret (VDict {[ lit "translated" := translated ]}))
      (log ++ [translate_call req]).
Proof.
  intros Hn Hw. unfold translate_try at 1, bind at 1, requests_post.
  rewrite Hn. simpl timeout.
  apply within_iff in Hw. rewrite Hw. reflexivity.
Qed.


Lemma post_translate_valid body req :
  TranslateRequest_validate body = inr req ->
  post_translate net body
  = (outcome_of (fst (translate net req [])), snd (translate net req [])).
Proof.
  intros Hv. unfold post_translate. rewrite Hv.
  destruct (translate net req []); reflexivity.
Qed.

End TranslateLemmas.

(** ** [POST /translate]: the response mapping *)

Section TranslateContract.
Context `{PyRuntime}.
Variable net : PostCall -> NetOutcome.

(** A provider error status: the [HTTPException] with status 502 is raised
    inside the [try] and the last [except] clause turns it into a 500. *)
Lemma translate_non_200 body req waits resp :
  TranslateRequest_validate body = inr req ->
  nonempty (strip (req_text req)) = true ->
  net (translate_call req) = NetReply waits resp ->
  Forall (fun w => (w <= inject_Z 15)%Q) waits ->
  resp_status_code resp <> 200 ->
  post_translate net body
  = (Raised (HTTPException 500
               (str_HTTPException 502
                  (lit "Translation service error: "
                   ++ firstn 200 (resp_text resp)))),
     [translate_call req]).
Proof.
  intros Hv Hb Hn Hw Hs. rewrite (post_translate_valid _ _ _ Hv).
  assert (Ht : translate_try net req []
               = (Raise (HTTPException 502
                           (lit "Translation service error: "
                            ++ firstn 200 (resp_text resp))),
                  [translate_call req])).
  { rewrite (translate_try_reply _ _ _ _ _ Hn Hw).
    apply Z.eqb_neq in Hs. rewrite Hs. reflexivity. }
  rewrite (translate_raises _ _ _ _ _ Hb Ht). reflexivity.
Qed.

(** The same path for a 200 whose body has no usable [translatedText]. *)
Lemma translate_no_translation body req waits resp d :
  TranslateRequest_validate body = inr req ->
  nonempty (strip (req_text req)) = true ->
  net (translate_call req) = NetReply waits resp ->
  Forall (fun w => (w <= inject_Z 15)%Q) waits ->
  resp_status_code resp = 200 ->
  resp_json resp = Return (VDict d) ->
  truthy (default VNone (d !! lit "translatedText")) = false ->
  post_translate net body
  = (Raised (HTTPException 500
               (str_HTTPException 502
                  (lit "Invalid response from translation service"))),
     [translate_call req]).
Proof.
  intros Hv Hb Hn Hw Hs Hj Ht. rewrite (post_translate_valid _ _ _ Hv).
  assert (Hr : translate_try net req []
               = (Raise (HTTPException 502
                           (lit "Invalid response from translation service")),
                  [translate_call req])).
  { rewrite (translate_try_reply _ _ _ _ _ Hn Hw).
    rewrite Hs, Hj. simpl. unfold bind, lift, get, ret. simpl.
    rewrite Ht. reflexivity. }
  rewrite (translate_raises _ _ _ _ _ Hb Hr). reflexivity.
Qed.

End TranslateContract.

(** C1: the provider answers 503 "Service Unavailable" to the request
    [{text: "Hello", target: "es"}].  The handler raises its 502 inside
    the [try], the clause [except Exception] catches it, and the caller
    gets status 500 with the printed 502 exception as detail: the
    response is not the BadGateway the contract asks for. *)
Theorem provider_error_status_yields_500 `{PyRuntime} :
  post_translate unavailable hello_es
  = (Raised (HTTPException 500
               (str_HTTPException 502
                  (lit "Translation service error: Service Unavailable"))),
     [translate_call (request_of (lit "Hello"))])
  /\ http_status (fst (post_translate unavailable hello_es)) = 500.
Proof. split; vm_compute; reflexivity. Qed.

(** C2: the provider answers 200 with the body [{}], or with a body that
    is not JSON.  In the first case the handler's 502 is caught by
    [except Exception] and becomes a 500; in the second the error of
    [resp.json()] goes to the same clause.  Neither response is the
    BadGateway the contract asks for. *)
Theorem invalid_provider_body_yields_500 `{PyRuntime} :
  post_translate empty_object hello_es
  = (Raised (HTTPException 500
               (str_HTTPException 502
                  (lit "Invalid response from translation service"))),
     [translate_call (request_of (lit "Hello"))])
  /\ post_translate not_json hello_es
    = (Raised (HTTPException 500 EXPECTING_VALUE),
       [translate_call (request_of (lit "Hello"))])
  /\ http_status (fst (post_translate empty_object hello_es)) = 500
  /\ http_status (fst (post_translate not_json hello_es)) = 500.
Proof. repeat split; vm_compute; reflexivity. Qed.

(** C3, as stated, fails on an empty text: the request model rejects it
    with 422 and the handler's 400 is never reached. *)
Lemma empty_text_is_not_400 :
  fst (post_translate refused empty_es) = Rejected [StringTooShort (lit "text")]
  /\ http_status (fst (post_translate refused empty_es)) <> 400.
Proof. split; vm_compute; [reflexivity | discriminate]. Qed.

(** C3, amended: a request that the request model accepts and whose text
    holds only whitespace gets status 400, whatever its source and
    target, and no outbound call is made. *)
Theorem whitespace_text_yields_400 `{PyRuntime} net d t req :
  TranslateRequest_validate (VDict d) = inr req ->
  d !! lit "text" = Some (VStr t) ->
  forallb isspace t = true ->
  post_translate net (VDict d)
  = (Raised (HTTPException 400 (lit "Text cannot be empty")), [])
  /\ http_status (fst (post_translate net (VDict d))) = 400.
Proof.
  intros Hv Ht Hw.
  destruct (validate_inv _ _ Hv) as (d' & [= <-] & Ht' & _).
  rewrite Ht in Ht'. injection Ht' as ->.
  apply blank_iff in Hw.
  rewrite (post_translate_valid _ _ _ Hv), (translate_blank _ _ _ Hw).
  split; reflexivity.
Qed.

Lemma whitespace_text_yields_400_witness :
  post_translate hola blank_es
  = (Raised (HTTPException 400 (lit "Text cannot be empty")), [])
  /\ http_status (fst (post_translate hola blank_es)) = 400.
Proof.
  apply (whitespace_text_yields_400 hola _ (lit "  ") (request_of (lit "  ")));
    vm_compute; reflexivity.
Defined.






(** C6: an accepted request makes exactly one outbound call, whatever the
    provider does with it: [q] is the text as received, [source] is the
    given source or ["auto"] when it is omitted, null or empty, [target]
    is the given target and [format] is ["text"]. *)
Theorem one_outbound_call `{PyRuntime} net d t g req :
  TranslateRequest_validate (VDict d) = inr req ->
  d !! lit "text" = Some (VStr t) ->
  d !! lit "target" = Some (VStr g) ->
  nonempty (strip t) = true ->
  snd (post_translate net (VDict d))
  = [ {| url := TRANSLATE_URL;
         data := [ (lit "q", t);
                   (lit "source",
                    match d !! lit "source" with
                    | Some (VStr (c :: s)) => c :: s
                    | _ => lit "auto"
                    end);
                   (lit "target", g);
                   (lit "format", lit "text") ];
         timeout := 15 |} ].
Proof.
  intros Hv Ht Hg Hb.
  destruct (validate_inv _ _ Hv) as (d' & [= <-] & Ht' & _ & Hg' & Hs).
  rewrite Ht in Ht'. injection Ht' as Et.
  rewrite Hg in Hg'. injection Hg' as Eg.
  rewrite (post_translate_valid _ _ _ Hv). simpl snd.
  rewrite translate_calls by (rewrite <- Et; exact Hb).
  unfold translate_call. rewrite <- Et, <- Eg. simpl app.
  do 3 f_equal. f_equal. f_equal.
  unfold validate_source in Hs.
  destruct (d !! lit "source") as [[| | | |[|c s]| | |]|];
    try discriminate; injection Hs as <-; reflexivity.
Qed.

Lemma one_outbound_call_witness :
  snd (post_translate refused hello_es)
  = [ {| url := TRANSLATE_URL;
         data := [ (lit "q", lit "Hello"); (lit "source", lit "auto");
                   (lit "target", lit "es"); (lit "format", lit "text") ];
         timeout := 15 |} ].
Proof.
  pose proof (one_outbound_call refused
                {[ lit "text" := VStr (lit "Hello");
                   lit "target" := VStr (lit "es") ]}
                (lit "Hello") (lit "es") (request_of (lit "Hello"))) as W.
  vm_compute in W |- *. apply W; reflexivity.
Defined.

(** An error of [resp.json()] is an exception of the suite. *)
Lemma json_error_raised net req waits resp e :
  net (translate_call req) = NetReply waits resp ->
  Forall (fun w => (w <= inject_Z 15)%Q) waits ->
  resp_status_code resp = 200 ->
  resp_json resp = Raise e ->
  translate_try net req [] = (Raise e, [translate_call req]).
Proof.
  intros Hn Hw Hs Hj. rewrite (translate_try_reply _ _ _ _ _ Hn Hw).
  rewrite Hs, Hj. reflexivity.
Qed.

(** C7: for an accepted request, an exception raised by the outbound call
    or while the response is handled, other than a [requests.Timeout],
    gives status 500 with [str(e)] as detail. *)
Theorem other_exception_yields_500 `{PyRuntime} net body req e calls :
  TranslateRequest_validate body = inr req ->
  nonempty (strip (req_text req)) = true ->
  translate_try net req [] = (Raise e, calls) ->
  (forall m, e <> Timeout m) ->
  post_translate net body = (Raised (HTTPException 500 (str_exn e)), calls)
  /\ http_status (fst (post_translate net body)) = 500.
Proof.
  intros Hv Hb Hr Hne.
  rewrite (post_translate_valid _ _ _ Hv), (translate_raises _ _ _ _ _ Hb Hr).
  destruct e as [c dt|m|m]; [| exfalso; exact (Hne m eq_refl) |];
    split; reflexivity.
Qed.

Lemma other_exception_yields_500_witness :
  post_translate refused hello_es
  = (Raised (HTTPException 500 CONNECTION_REFUSED),
     [translate_call (request_of (lit "Hello"))])
  /\ http_status (fst (post_translate refused hello_es)) = 500.
Proof.
  apply (other_exception_yields_500 refused hello_es
           (request_of (lit "Hello")) (PyException CONNECTION_REFUSED));
    [ vm_compute; reflexivity
    | vm_compute; reflexivity
    | apply translate_try_net_error; reflexivity
    | discriminate ].
Defined.

Lemma translate_except_status `{PyRuntime} e log c dt log' :
  translate_except e log = (Raise (HTTPException c dt), log') ->
  c = 504 \/ c = 500.
Proof. destruct e; intros [= <- _ _]; auto. Qed.

Lemma translate_except_raises `{PyRuntime} e log :
  exists c dt, translate_except e log = (Raise (HTTPException c dt), log).
Proof. destruct e; eexists _, _; reflexivity. Qed.

(** C10: a request whose text is the empty string is rejected by the
    request model, before the handler is entered and with no outbound
    call; so a response 400 "Text cannot be empty" only answers a text
    that is not empty and holds nothing but whitespace. *)
Theorem empty_text_rejected_by_model `{PyRuntime} net body :
  (forall d, body = VDict d -> d !! lit "text" = Some (VStr []) ->
     exists errors,
       post_translate net body = (Rejected errors, [])
       /\ In (StringTooShort (lit "text")) errors)
  /\ (forall calls,
        post_translate net body
        = (Raised (HTTPException 400 (lit "Text cannot be empty")), calls) ->
        exists d t, body = VDict d /\ d !! lit "text" = Some (VStr t)
                    /\ t <> [] /\ forallb isspace t = true).
Proof.
  split.
  - intros d -> Ht. unfold post_translate. simpl.
    unfold validate_text. rewrite Ht. simpl.
    destruct (validate_source d), (validate_target d);
      eexists; (split; [reflexivity | simpl; auto]).
  - intros calls Hp. unfold post_translate in Hp.
    destruct (TranslateRequest_validate body) as [errs|req] eqn:Hv;
      [discriminate|].
    destruct (validate_inv _ _ Hv) as (d & -> & Ht & Hne & _).
    exists d, (req_text req). repeat split; try assumption.
    apply blank_iff.
    destruct (nonempty (strip (req_text req))) eqn:Hb; [exfalso | reflexivity].
    rewrite (translate_accepted _ _ _ Hb) in Hp. unfold try_except in Hp.
    destruct (translate_try net req []) as [[v|e] l]; [discriminate|].
    destruct (translate_except_raises e l) as (c & dt & He).
    pose proof (translate_except_status _ _ _ _ _ He) as Hc.
    rewrite He in Hp. simpl in Hp. injection Hp as Hc' _ _.
    subst c. destruct Hc; discriminate.
Qed.

Lemma empty_text_rejected_by_model_witness :
  (exists errors,
     post_translate hola empty_es = (Rejected errors, [])
     /\ In (StringTooShort (lit "text")) errors)
  /\ (exists d t, blank_es = VDict d /\ d !! lit "text" = Some (VStr t)
                  /\ t <> [] /\ forallb isspace t = true).
Proof.
  split.
  - apply (proj1 (empty_text_rejected_by_model hola empty_es)
             {[ lit "text" := VStr []; lit "target" := VStr (lit "es") ]});
      vm_compute; reflexivity.
  - apply (proj2 (empty_text_rejected_by_model hola blank_es) []).
    vm_compute; reflexivity.
Defined.

(** ** [GET /themes] *)

Lemma ID_ne : lit "_id" <> lit "id".
Proof. discriminate. Qed.

Section ThemesLemmas.
Context `{PyRuntime}.

Lemma rekey_no__id (d : gmap str value) : rekey d !! lit "_id" = None.
Proof.
  unfold rekey. destruct (d !! lit "_id") eqn:Hd; [|exact Hd].
  apply lookup_delete_eq.
Qed.

(** Running the loop body again on the same object changes nothing. *)
Lemma rekey_idem (d : gmap str value) : rekey (rekey d) = rekey d.
Proof. unfold rekey at 1. rewrite rekey_no__id. reflexivity. Qed.

Lemma rekey_id (d : gmap str value) v :
  d !! lit "_id" = Some v -> rekey d !! lit "id" = Some (VStr (py_str v)).
Proof.
  intros Hd. unfold rekey. rewrite Hd.
  rewrite lookup_delete_ne by exact ID_ne. apply lookup_insert_eq.
Qed.

Lemma rekey_other (d : gmap str value) k :
  k <> lit "_id" -> k <> lit "id" -> rekey d !! k = d !! k.
Proof.
  intros H1 H2. unfold rekey. destruct (d !! lit "_id"); [|reflexivity].
  rewrite lookup_delete_ne by congruence.
  rewrite lookup_insert_ne by congruence. reflexivity.
Qed.

Lemma rekey_absent (d : gmap str value) :
  d !! lit "_id" = None -> rekey d = d.
Proof. intros Hd. unfold rekey. rewrite Hd. reflexivity. Qed.

(** The loop over the list of references. *)
Lemma for_each_rekey (refs : list loc) (h : heap) :
  for_each refs (fun d => modify (alter rekey d)) h
  = (Return tt, foldl (fun h r => alter rekey r h) h refs).
Proof.
  revert h. induction refs as [|r refs IH]; intros h; [reflexivity|].
  simpl. unfold bind at 1, modify at 1. apply IH.
Qed.

(** After the loop every listed object has been re-keyed once, however
    often it is listed. *)
Lemma rekey_loop_lookup (refs : list loc) (h : heap) (r : loc) :
  foldl (fun h r => alter rekey r h) h refs !! r
  = (if bool_decide (r ∈ refs) then rekey <$> h !! r else h !! r)
  /\ rekey <$> (foldl (fun h r => alter rekey r h) h refs !! r)
     = rekey <$> h !! r.
Proof.
  revert h. induction refs as [|a refs IH]; intros h.
  - rewrite bool_decide_eq_false_2 by apply not_elem_of_nil. split; reflexivity.
  - simpl. destruct (IH (alter rekey a h)) as [IH1 IH2].
    assert (Ha : rekey <$> alter rekey a h !! r = rekey <$> h !! r).
    { destruct (decide (a = r)) as [->|Hne].
      - rewrite lookup_alter_eq. destruct (h !! r); simpl; [|reflexivity].
        f_equal. apply rekey_idem.
      - rewrite lookup_alter_ne by assumption. reflexivity. }
    split; [|rewrite IH2; exact Ha].
    rewrite IH1. destruct (decide (r ∈ refs)) as [Hin|Hin].
    + rewrite bool_decide_eq_true_2 by assumption.
      rewrite bool_decide_eq_true_2 by (right; assumption). exact Ha.
    + rewrite bool_decide_eq_false_2 by assumption.
      destruct (decide (a = r)) as [->|Hne].
      * rewrite bool_decide_eq_true_2 by left. apply lookup_alter_eq.
      * rewrite bool_decide_eq_false_2.
        -- apply lookup_alter_ne. assumption.
        -- intros Hc. apply elem_of_cons in Hc as [->|Hc]; tauto.
Qed.

End ThemesLemmas.

(** C8: when the store returns documents, the response is
    [{"items": ...}] with one item per returned document, in order; no
    item has the key [_id]; where the stored document had [_id], the item
    has [id] with [str()] of it and its other keys as stored; a document
    without [_id] comes back as stored.  When the store raises, the
    response is 500. *)
Theorem themes_listed_with_string_id `{PyRuntime} get_documents limit h :
  (forall refs h1,
     get_documents (lit "theme") limit h = (Return refs, h1) ->
     Forall (fun r => is_Some (h1 !! r)) refs ->
     exists items h2,
       list_themes get_documents limit h
       = (Return (VDict {[ lit "items" := VList items ]}), h2)
       /\ Forall2
            (fun r item =>
               exists d d',
                 h1 !! r = Some d /\ item = VDict d'
                 /\ d' !! lit "_id" = None
                 /\ match d !! lit "_id" with
                    | Some v =>
                        d' !! lit "id" = Some (VStr (py_str v))
                        /\ forall k, k <> lit "_id" -> k <> lit "id" ->
                                     d' !! k = d !! k
                    | None => d' = d
                    end)
            refs items)
  /\ (forall e h1,
        get_documents (lit "theme") limit h = (Raise e, h1) ->
        list_themes get_documents limit h
        = (Raise (HTTPException 500 (str_exn e)), h1)
        /\ http_status (outcome_of (fst (list_themes get_documents limit h)))
           = 500).
Proof.
  split.
  - intros refs h1 Hg Hlive.
    unfold list_themes, try_except, bind at 1. rewrite Hg.
    unfold bind. rewrite for_each_rekey.
    set (h2 := foldl _ h1 refs).
    exists (deref h2 <$> refs), h2. split; [reflexivity|].
    apply Forall2_fmap_r, Forall_Forall2_diag.
    rewrite Forall_forall in Hlive |- *. intros r Hr.
    destruct (Hlive r Hr) as [d Hd].
    exists d, (rekey d). split; [exact Hd|].
    assert (Hl : h2 !! r = Some (rekey d)).
    { unfold h2. rewrite (proj1 (rekey_loop_lookup refs h1 r)).
      rewrite bool_decide_eq_true_2 by assumption. rewrite Hd. reflexivity. }
    split; [unfold compose, deref; rewrite Hl; reflexivity|].
    split; [apply rekey_no__id|].
    destruct (d !! lit "_id") as [v|] eqn:Hid.
    + split; [apply rekey_id; assumption|]. intros k; apply rekey_other.
    + apply rekey_absent; assumption.
  - intros e h1 Hg.
    assert (Hl : list_themes get_documents limit h
                 = (Raise (HTTPException 500 (str_exn e)), h1)).
    { unfold list_themes, try_except, bind. rewrite Hg. reflexivity. }
    rewrite Hl. split; reflexivity.
Qed.

Example two_themes_listed :
  fst (get_themes two_themes None ∅)
  = Return
      (VDict
         {[ lit "items" :=
              VList
                [ VDict {[ lit "id" := VStr (lit "65a1f0c2e4b0a1b2c3d4e5f6");
                           lit "name" := VStr (lit "dark") ]};
                  VDict {[ lit "name" := VStr (lit "plain") ]};
                  VDict {[ lit "id" := VStr (lit "65a1f0c2e4b0a1b2c3d4e5f6");
                           lit "name" := VStr (lit "dark") ]} ] ]}).
Proof. vm_compute. reflexivity. Qed.

Lemma themes_listed_with_string_id_witness :
  (exists items h2,
     list_themes two_themes (Some 50) ∅
     = (Return (VDict {[ lit "items" := VList items ]}), h2)
     /\ Forall2
          (fun r item =>
             exists d d',
               (<[1%positive := dark_theme]> (<[2%positive := plain_theme]> ∅)
                  : heap) !! r = Some d
               /\ item = VDict d'
               /\ d' !! lit "_id" = None
               /\ match d !! lit "_id" with
                  | Some v =>
                      d' !! lit "id" = Some (VStr (py_str v))
                      /\ forall k, k <> lit "_id" -> k <> lit "id" ->
                                   d' !! k = d !! k
                  | None => d' = d
                  end)
          [1%positive; 2%positive; 1%positive] items)
  /\ (list_themes no_store (Some 50) ∅
      = (Raise (HTTPException 500 DATABASE_NOT_AVAILABLE), ∅)
      /\ http_status (outcome_of (fst (list_themes no_store (Some 50) ∅))) = 500).
Proof.
  split.
  - apply (proj1 (themes_listed_with_string_id two_themes (Some 50) ∅));
      [reflexivity|].
    repeat constructor; eexists; vm_compute; reflexivity.
  - apply (proj2 (themes_listed_with_string_id no_store (Some 50) ∅)
             (PyException DATABASE_NOT_AVAILABLE) ∅).
    reflexivity.
Defined.

(** ** [GET /test] *)

Lemma URL_ne_NAME : lit "database_name" <> lit "database_url".
Proof. discriminate. Qed.

(** C9, as stated, fails for a variable that is set to the empty string:
    it is set, and the field reads "Not Set". *)
Lemma set_to_empty_reads_not_set :
  empty_env (lit "DATABASE_URL") <> None
  /\ empty_env (lit "DATABASE_NAME") <> None
  /\ test_database None empty_env !! lit "database_url"
     = Some (VStr (CROSS_MARK ++ lit " Not Set"))
  /\ test_database None empty_env !! lit "database_name"
     = Some (VStr (CROSS_MARK ++ lit " Not Set")).
Proof.
  split; [discriminate|]. split; [discriminate|].
  split; vm_compute; reflexivity.
Qed.

(** C9, amended: the two fields depend only on whether the variables are
    set to a non-empty value; what the probe of the database wrote in
    them is overwritten, so the state of the database has no influence. *)
Theorem env_fields_ignore_database `{PyRuntime} db getenv :
  test_database db getenv !! lit "database_url"
  = Some (VStr (match getenv (lit "DATABASE_URL") with
                | Some (_ :: _) => CHECK_MARK ++ lit " Set"
                | _ => CROSS_MARK ++ lit " Not Set"
                end))
  /\ test_database db getenv !! lit "database_name"
     = Some (VStr (match getenv (lit "DATABASE_NAME") with
                   | Some (_ :: _) => CHECK_MARK ++ lit " Set"
                   | _ => CROSS_MARK ++ lit " Not Set"
                   end))
  /\ (forall db',
        test_database db' getenv !! lit "database_url"
        = test_database db getenv !! lit "database_url"
        /\ test_database db' getenv !! lit "database_name"
           = test_database db getenv !! lit "database_name").
Proof.
  assert (Hu : forall db0,
             test_database db0 getenv !! lit "database_url"
             = Some (VStr (match getenv (lit "DATABASE_URL") with
                           | Some (_ :: _) => CHECK_MARK ++ lit " Set"
                           | _ => CROSS_MARK ++ lit " Not Set"
                           end))).
  { intros db0. unfold test_database.
    rewrite lookup_insert_ne by exact URL_ne_NAME.
    rewrite lookup_insert_eq. unfold env_truthy.
    destruct (getenv (lit "DATABASE_URL")) as [[|c s]|]; reflexivity. }
  assert (Hn : forall db0,
             test_database db0 getenv !! lit "database_name"
             = Some (VStr (match getenv (lit "DATABASE_NAME") with
                           | Some (_ :: _) => CHECK_MARK ++ lit " Set"
                           | _ => CROSS_MARK ++ lit " Not Set"
                           end))).
  { intros db0. unfold test_database. rewrite lookup_insert_eq.
    unfold env_truthy.
    destruct (getenv (lit "DATABASE_NAME")) as [[|c s]|]; reflexivity. }
  split; [apply Hu|]. split; [apply Hn|].
  intros db'. rewrite !Hu, !Hn. split; reflexivity.
Qed.

(** The probe on a working database, and on one whose listing fails. *)
Example test_database_connected :
  test_database
    (Some {| db_hasattr_name := Return true;
             db_name := Return (VStr (lit "themes"));
             db_list_collection_names := Return [VStr (lit "theme")] |})
    (fun _ => None)
  = {[ lit "backend" := VStr (CHECK_MARK ++ lit " Running");
       lit "database" := VStr (CHECK_MARK ++ lit " Connected & Working");
       lit "database_url" := VStr (CROSS_MARK ++ lit " Not Set");
       lit "database_name" := VStr (CROSS_MARK ++ lit " Not Set");
       lit "connection_status" := VStr (lit "Connected");
       lit "collections" := VList [VStr (lit "theme")] ]}.
Proof. vm_compute. reflexivity. Qed.

Example test_database_listing_fails :
  test_database
    (Some {| db_hasattr_name := Return false;
             db_name := Raise (PyException (lit "no attribute"));
             db_list_collection_names := Raise (PyException (lit "auth failed")) |})
    (fun k => if bool_decide (k = lit "DATABASE_URL")
              then Some (lit "mongodb://localhost") else None)
  = {[ lit "backend" := VStr (CHECK_MARK ++ lit " Running");
       lit "database" :=
         VStr (WARNING_SIGN ++ lit "  Connected but Error: auth failed");
       lit "database_url" := VStr (CHECK_MARK ++ lit " Set");
       lit "database_name" := VStr (CROSS_MARK ++ lit " Not Set");
       lit "connection_status" := VStr (lit "Connected");
       lit "collections" := VList [] ]}.
Proof. vm_compute. reflexivity. Qed.

(** * Further properties of the handlers *)

(** ** [POST /translate]: every way a request can end *)

Lemma post_translate_cases `{PyRuntime} net body :
  (exists errors, post_translate net body = (Rejected errors, []))
  \/ post_translate net body
     = (Raised (HTTPException 400 (lit "Text cannot be empty")), [])
  \/ exists req,
       TranslateRequest_validate body = inr req
       /\ ((exists v, post_translate net body
                      = (Returned v, [translate_call req]))
           \/ post_translate net body
              = (Raised (HTTPException 504 (lit "Translation service timeout")),
                 [translate_call req])
           \/ exists e, post_translate net body
                        = (Raised (HTTPException 500 (str_exn e)),
                           [translate_call req])).
Proof.
  destruct (TranslateRequest_validate body) as [errs|req] eqn:Hv.
  { left. exists errs. unfold post_translate. rewrite Hv. reflexivity. }
  right. rewrite (post_translate_valid _ _ _ Hv).
  destruct (nonempty (strip (req_text req))) eqn:Hb.
  - right. exists req. split; [reflexivity|].
    rewrite (translate_calls _ _ _ Hb), (translate_accepted _ _ _ Hb).
    unfold try_except.
    destruct (translate_try net req []) as [[v|e] l]; simpl.
    + left. eexists. reflexivity.
    + right. destruct e as [c dt|m|m]; simpl;
        [right; eexists (HTTPException c dt) | left | right; eexists (PyException m)];
        reflexivity.
  - left. rewrite (translate_blank _ _ _ Hb). reflexivity.
Qed.

(** X1: whatever the body and whatever the provider does, the status of
    the response is 200, 400, 422, 500 or 504; a 502 never leaves the
    handler. *)
Theorem translate_status_range `{PyRuntime} net body :
  In (http_status (fst (post_translate net body))) [200; 400; 422; 500; 504].
Proof.
  destruct (post_translate_cases net body)
    as [[errs ->] | [-> | (req & _ & [[v ->] | [-> | [e ->]]])]];
    simpl; auto 6.
Qed.


(** X3: any truthy [translatedText], a string or not, is returned as it
    came. *)
Theorem truthy_translation_passed_through `{PyRuntime}
    net body req waits resp d x :
  TranslateRequest_validate body = inr req ->
  nonempty (strip (req_text req)) = true ->
  net (translate_call req) = NetReply waits resp ->
  Forall (fun w => (w <= inject_Z 15)%Q) waits ->
  resp_status_code resp = 200 ->
  resp_json resp = Return (VDict d) ->
  d !! lit "translatedText" = Some x ->
  truthy x = true ->
  post_translate net body
  = (Returned (VDict {[ lit "translated" := x ]}), [translate_call req]).
Proof.
  intros Hv Hb Hn Hw Hs Hj Hd Ht.
  assert (Hr : translate_try net req []
               = (Return (VDict {[ lit "translated" := x ]}),
                  [translate_call req])).
  { rewrite (translate_try_reply _ _ _ _ _ Hn Hw).
    rewrite Hs, Hj. simpl. unfold bind, lift, get, ret. simpl.
    rewrite Hd. simpl. rewrite Ht. reflexivity. }
  rewrite (post_translate_valid _ _ _ Hv).
  rewrite (translate_returns _ _ _ _ _ Hb Hr). reflexivity.
Qed.

Lemma truthy_translation_passed_through_witness :
  post_translate forty_two hello_es
  = (Returned (VDict {[ lit "translated" := VInt 42 ]}),
     [translate_call (request_of (lit "Hello"))]).
Proof.
  apply (truthy_translation_passed_through forty_two hello_es
           (request_of (lit "Hello")) [1%Q]
           {| resp_status_code := 200; resp_text := lit "{}";
              resp_json := Return (VDict {[ lit "translatedText" := VInt 42 ]}) |}
           {[ lit "translatedText" := VInt 42 ]} (VInt 42));
    concrete.
Defined.

Lemma translate_try_returns_inv net req log v log' :
  translate_try net req log = (Return v, log') ->
  exists waits resp d x,
    net (translate_call req) = NetReply waits resp
    /\ Forall (fun w => (w <= inject_Z 15)%Q) waits
    /\ resp_status_code resp = 200
    /\ resp_json resp = Return (VDict d)
    /\ d !! lit "translatedText" = Some x
    /\ truthy x = true
    /\ v = VDict {[ lit "translated" := x ]}.
Proof.
  unfold translate_try, bind, requests_post.
  destruct (net (translate_call req)) as [e| |waits resp]; try discriminate.
  simpl timeout. destruct (within waits 15) eqn:Hw; [|discriminate].
  destruct (resp_status_code resp =? 200) eqn:Hs; simpl; [|discriminate].
  unfold lift. destruct (resp_json resp) as [dv|e] eqn:Hj; [|discriminate].
  unfold get. destruct dv as [| | | | | |d|]; try discriminate.
  unfold ret. destruct (d !! lit "translatedText") as [x|] eqn:Hd; simpl.
  - destruct (truthy x) eqn:Ht; simpl; [|discriminate].
    intros [= <- _]. exists waits, resp, d, x.
    apply within_iff in Hw. apply Z.eqb_eq in Hs. auto 10.
  - discriminate.
Qed.

(** X4: a 200 is only ever sent when the provider answered the one
    outbound call without keeping the client waiting longer than 15
    seconds at any one time, with status 200 and a JSON object whose
    [translatedText] is truthy; the body is then [{"translated": ...}]
    with that value. *)
Theorem success_only_from_provider `{PyRuntime} net body v calls :
  post_translate net body = (Returned v, calls) ->
  exists req waits resp d x,
    TranslateRequest_validate body = inr req
    /\ calls = [translate_call req]
    /\ net (translate_call req) = NetReply waits resp
    /\ Forall (fun w => (w <= inject_Z 15)%Q) waits
    /\ resp_status_code resp = 200
    /\ resp_json resp = Return (VDict d)
    /\ d !! lit "translatedText" = Some x
    /\ truthy x = true
    /\ v = VDict {[ lit "translated" := x ]}.
Proof.
  intros Hp.
  destruct (TranslateRequest_validate body) as [errs|req] eqn:Hv.
  { unfold post_translate in Hp. rewrite Hv in Hp. discriminate. }
  rewrite (post_translate_valid _ _ _ Hv) in Hp.
  destruct (nonempty (strip (req_text req))) eqn:Hb.
  - rewrite (translate_accepted _ _ _ Hb) in Hp. unfold try_except in Hp.
    destruct (translate_try net req []) as [[v'|e] l] eqn:Hr.
    + simpl in Hp. injection Hp as <- <-.
      pose proof (translate_try_calls net req []) as Hc. rewrite Hr in Hc.
      simpl in Hc. subst l.
      destruct (translate_try_returns_inv _ _ _ _ _ Hr)
        as (w & resp & d & x & ?).
      exists req, w, resp, d, x. tauto.
    + destruct (translate_except_raises e l) as (c & dt & He).
      rewrite He in Hp. discriminate.
  - rewrite (translate_blank _ _ _ Hb) in Hp. discriminate.
Qed.

Lemma success_only_from_provider_witness :
  exists req waits resp d x,
    TranslateRequest_validate hello_es = inr req
    /\ [translate_call (request_of (lit "Hello"))] = [translate_call req]
    /\ hola (translate_call req) = NetReply waits resp
    /\ Forall (fun w => (w <= inject_Z 15)%Q) waits
    /\ resp_status_code resp = 200
    /\ resp_json resp = Return (VDict d)
    /\ d !! lit "translatedText" = Some x
    /\ truthy x = true
    /\ VDict {[ lit "translated" := VStr (lit "Hola") ]}
       = VDict {[ lit "translated" := x ]}.
Proof.
  apply (success_only_from_provider hola hello_es).
  vm_compute. reflexivity.
Defined.

(** X5: an accepted request is answered with 504 exactly when the suite
    of the [try] raised a [requests.Timeout], be it the wait for the
    reply or a timeout the client reports itself. *)
Theorem status_504_iff_timeout `{PyRuntime} net body req :
  TranslateRequest_validate body = inr req ->
  nonempty (strip (req_text req)) = true ->
  http_status (fst (post_translate net body)) = 504
  <-> exists m, fst (translate_try net req []) = Raise (Timeout m).
Proof.
  intros Hv Hb.
  rewrite (post_translate_valid _ _ _ Hv), (translate_accepted _ _ _ Hb).
  unfold try_except.
  destruct (translate_try net req []) as [[v|[c dt|m|m]] l]; simpl;
    (split; [intros Hs; try discriminate; eauto | intros [m' Hm]; congruence]).
Qed.

Lemma status_504_iff_timeout_witness :
  http_status (fst (post_translate connect_timeout hello_es)) = 504
  <-> exists m,
        fst (translate_try connect_timeout (request_of (lit "Hello")) [])
        = Raise (Timeout m).
Proof.
  apply (status_504_iff_timeout connect_timeout hello_es
           (request_of (lit "Hello")));
    vm_compute; reflexivity.
Defined.

(** ** [GET /themes]: what the loop does to the store *)

Lemma list_themes_returns `{PyRuntime} get_documents limit h refs h1 :
  get_documents (lit "theme") limit h = (Return refs, h1) ->
  list_themes get_documents limit h
  = (Return (VDict {[ lit "items" :=
                        VList (deref (foldl (fun h r => alter rekey r h) h1 refs)
                                 <$> refs) ]}),
     foldl (fun h r => alter rekey r h) h1 refs).
Proof.
  intros Hg. unfold list_themes, try_except, bind at 1. rewrite Hg.
  unfold bind. rewrite for_each_rekey. reflexivity.
Qed.

(** X6: the handler changes the listed documents in place: after a
    successful request each listed object of the store has lost [_id] and
    carries [id], and the objects that are not listed are as they were. *)
Theorem themes_rekeyed_in_place `{PyRuntime} get_documents limit h refs h1 :
  get_documents (lit "theme") limit h = (Return refs, h1) ->
  (forall r, r ∉ refs ->
     snd (list_themes get_documents limit h) !! r = h1 !! r)
  /\ (forall r d, r ∈ refs -> h1 !! r = Some d ->
        exists d',
          snd (list_themes get_documents limit h) !! r = Some d'
          /\ d' !! lit "_id" = None
          /\ (forall v, d !! lit "_id" = Some v ->
                        d' !! lit "id" = Some (VStr (py_str v)))).
Proof.
  intros Hg. rewrite (list_themes_returns _ _ _ _ _ Hg). simpl snd. split.
  - intros r Hr. rewrite (proj1 (rekey_loop_lookup refs h1 r)).
    rewrite bool_decide_eq_false_2 by assumption. reflexivity.
  - intros r d Hr Hd. exists (rekey d).
    rewrite (proj1 (rekey_loop_lookup refs h1 r)).
    rewrite bool_decide_eq_true_2 by assumption. rewrite Hd.
    split; [reflexivity|]. split; [apply rekey_no__id|].
    intros v Hv. apply rekey_id. assumption.
Qed.

Lemma themes_rekeyed_in_place_witness :
  (forall r, r ∉ [1%positive; 2%positive; 1%positive] ->
     snd (list_themes two_themes None (∅ : heap)) !! r
     = (<[1%positive := dark_theme]> (<[2%positive := plain_theme]> ∅) : heap)
         !! r)
  /\ (forall r d, r ∈ [1%positive; 2%positive; 1%positive] ->
        (<[1%positive := dark_theme]> (<[2%positive := plain_theme]> ∅) : heap)
          !! r = Some d ->
        exists d',
          snd (list_themes two_themes None (∅ : heap)) !! r = Some d'
          /\ d' !! lit "_id" = None
          /\ (forall v, d !! lit "_id" = Some v ->
                        d' !! lit "id" = Some (VStr (py_str v)))).
Proof.
  apply (themes_rekeyed_in_place two_themes None ∅). reflexivity.
Defined.

Lemma rekey_loop_id `{PyRuntime} (refs : list loc) (h : heap) :
  Forall (fun r => forall d, h !! r = Some d -> d !! lit "_id" = None) refs ->
  foldl (fun h r => alter rekey r h) h refs = h.
Proof.
  induction refs as [|r refs IH]; intros Hall; [reflexivity|].
  inversion Hall as [|? ? Hr Hrest]; subst. simpl.
  rewrite alter_id; [apply IH; assumption|].
  intros d Hd. apply rekey_absent. apply (Hr d Hd).
Qed.

(** X7: when none of the returned documents has the key [_id], as after
    an earlier pass over the same objects, the store is left unchanged
    and the items are the documents as stored. *)
Theorem themes_without__id_untouched `{PyRuntime}
    get_documents limit h refs h1 :
  get_documents (lit "theme") limit h = (Return refs, h1) ->
  Forall (fun r => forall d, h1 !! r = Some d -> d !! lit "_id" = None) refs ->
  list_themes get_documents limit h
  = (Return (VDict {[ lit "items" := VList (deref h1 <$> refs) ]}), h1).
Proof.
  intros Hg Hall. rewrite (list_themes_returns _ _ _ _ _ Hg).
  rewrite (rekey_loop_id refs h1 Hall). reflexivity.
Qed.

Lemma themes_without__id_untouched_witness :
  list_themes (fun _ _ h => (Return [2%positive; 2%positive],
                             <[2%positive := plain_theme]> h))
    None (∅ : heap)
  = (Return (VDict {[ lit "items" :=
                        VList (deref (<[2%positive := plain_theme]> ∅)
                                 <$> [2%positive; 2%positive]) ]}),
     <[2%positive := plain_theme]> ∅).
Proof.
  apply (themes_without__id_untouched
           (fun _ _ h => (Return [2%positive; 2%positive],
                          <[2%positive := plain_theme]> h))
           None ∅ [2%positive; 2%positive]);
    [reflexivity|].
  repeat constructor; intros d; vm_compute; intros [= <-]; reflexivity.
Defined.

(** ** [POST /themes] *)

Lemma validate_str_inv d k dflt v :
  validate_str d k dflt = inr v ->
  match dflt with
  | Some x => default (VStr x) (d !! k) = VStr v
  | None => d !! k = Some (VStr v)
  end.
Proof.
  unfold validate_str.
  destruct (d !! k) as [[| | | |s| | |]|]; try discriminate.
  - intros [= <-]. destruct dflt; reflexivity.
  - destruct dflt; [intros [= <-]; reflexivity | discriminate].
Qed.

Lemma validate_optional_str_inv d k dflt f :
  validate_optional_str d k dflt = inr f ->
  default (VStr dflt) (d !! k)
  = match f with Some s => VStr s | None => VNone end.
Proof.
  unfold validate_optional_str.
  destruct (d !! k) as [[| | | |s| | |]|]; try discriminate;
    intros [= <-]; reflexivity.
Qed.

Lemma ThemeCreate_validate_inv d theme :
  ThemeCreate_validate (VDict d) = inr theme ->
  validate_str d (lit "name") None = inr (theme_name theme)
  /\ validate_str d (lit "primary") (Some (lit "#4f46e5"))
     = inr (theme_primary theme)
  /\ validate_str d (lit "background_from") (Some (lit "#ffffff"))
     = inr (theme_background_from theme)
  /\ validate_str d (lit "background_to") (Some (lit "#f5f3ff"))
     = inr (theme_background_to theme)
  /\ validate_str d (lit "text") (Some (lit "#111827"))
     = inr (theme_text theme)
  /\ validate_str d (lit "mode") (Some (lit "light")) = inr (theme_mode theme)
  /\ validate_optional_str d (lit "font") (lit "Inter")
     = inr (theme_font theme).
Proof.
  unfold ThemeCreate_validate.
  destruct (validate_str d (lit "name") None); [discriminate|].
  destruct (validate_str d (lit "primary") _); [discriminate|].
  destruct (validate_str d (lit "background_from") _); [discriminate|].
  destruct (validate_str d (lit "background_to") _); [discriminate|].
  destruct (validate_str d (lit "text") _); [discriminate|].
  destruct (validate_str d (lit "mode") _); [discriminate|].
  destruct (validate_optional_str d (lit "font") _); [discriminate|].
  intros [= <-]. simpl. repeat split.
Qed.


Lemma model_dump_lookup theme :
  model_dump theme !! lit "id" = None
  /\ model_dump theme !! lit "name" = Some (VStr (theme_name theme))
  /\ model_dump theme !! lit "primary" = Some (VStr (theme_primary theme))
  /\ model_dump theme !! lit "background_from"
     = Some (VStr (theme_background_from theme))
  /\ model_dump theme !! lit "background_to"
     = Some (VStr (theme_background_to theme))
  /\ model_dump theme !! lit "text" = Some (VStr (theme_text theme))
  /\ model_dump theme !! lit "mode" = Some (VStr (theme_mode theme))
  /\ model_dump theme !! lit "font"
     = Some (match theme_font theme with Some f => VStr f | None => VNone end).
Proof. destruct theme. repeat split; vm_compute; reflexivity. Qed.

Lemma model_dump_dom theme :
  dom (model_dump theme)
  = ({[ lit "name"; lit "primary"; lit "background_from"; lit "background_to";
        lit "text"; lit "mode"; lit "font" ]} : gset str).
Proof. destruct theme. vm_compute. reflexivity. Qed.

(** X8: for a body that the model accepts, when the store returns an id
    the response holds that id under [id], the name as given, and every
    other field as given or, where the body omits it, its default; keys
    of the body that the model does not declare are not echoed.  When the
    store raises, the response is 500 with [str(e)]. *)
Theorem theme_created_response `{PyRuntime} {S : Type}
    (create_document : str -> gmap str value -> M S value) d theme s :
  ThemeCreate_validate (VDict d) = inr theme ->
  (forall id s',
     create_document (lit "theme") (model_dump theme) s = (Return id, s') ->
     exists r,
       post_themes create_document (VDict d) s = (Returned (VDict r), s')
       /\ r !! lit "id" = Some id
       /\ r !! lit "name" = d !! lit "name"
       /\ r !! lit "primary"
          = Some (default (VStr (lit "#4f46e5")) (d !! lit "primary"))
       /\ r !! lit "background_from"
          = Some (default (VStr (lit "#ffffff")) (d !! lit "background_from"))
       /\ r !! lit "background_to"
          = Some (default (VStr (lit "#f5f3ff")) (d !! lit "background_to"))
       /\ r !! lit "text"
          = Some (default (VStr (lit "#111827")) (d !! lit "text"))
       /\ r !! lit "mode" = Some (default (VStr (lit "light")) (d !! lit "mode"))
       /\ r !! lit "font" = Some (default (VStr (lit "Inter")) (d !! lit "font"))
       /\ dom r
          = ({[ lit "id"; lit "name"; lit "primary"; lit "background_from";
                lit "background_to"; lit "text"; lit "mode"; lit "font" ]}
             : gset str))
  /\ (forall e s',
        create_document (lit "theme") (model_dump theme) s = (Raise e, s') ->
        post_themes create_document (VDict d) s
        = (Raised (HTTPException 500 (str_exn e)), s')).
Proof.
  intros Hv.
  destruct (ThemeCreate_validate_inv _ _ Hv)
    as (Hn & Hp & Hbf & Hbt & Ht & Hm & Hf).
  apply validate_str_inv in Hn, Hp, Hbf, Hbt, Ht, Hm.
  apply validate_optional_str_inv in Hf.
  destruct (model_dump_lookup theme)
    as (Li & Ln & Lp & Lbf & Lbt & Lt & Lm & Lf).
  split.
  - intros id s' Hc.
    exists (model_dump theme ∪ {[ lit "id" := id ]}). split.
    { unfold post_themes. rewrite Hv.
      unfold create_theme, try_except, bind. rewrite Hc. reflexivity. }
    split.
    { rewrite lookup_union_r by exact Li. apply lookup_singleton_eq. }
    rewrite Hn, Hp, Hbf, Hbt, Ht, Hm, Hf.
    repeat (split; [erewrite lookup_union_Some_l by eassumption; reflexivity|]).
    rewrite dom_union_L, model_dump_dom, dom_singleton_L.
    vm_compute. reflexivity.
  - intros e s' Hc. unfold post_themes. rewrite Hv.
    unfold create_theme, try_except, bind. rewrite Hc. reflexivity.
Qed.

Example ocean_created :
  post_themes counting_store (VDict ocean_body) 0%nat
  = (Returned
       (VDict {[ lit "id" := VStr (lit "1");
                 lit "name" := VStr (lit "Ocean");
                 lit "primary" := VStr (lit "#4f46e5");
                 lit "background_from" := VStr (lit "#ffffff");
                 lit "background_to" := VStr (lit "#f5f3ff");
                 lit "text" := VStr (lit "#111827");
                 lit "mode" := VStr (lit "dark");
                 lit "font" := VNone ]}),
     1%nat).
Proof. vm_compute. reflexivity. Qed.

Lemma theme_created_response_witness :
  (exists r,
     post_themes counting_store (VDict ocean_body) 0%nat
     = (Returned (VDict r), 1%nat)
     /\ r !! lit "id" = Some (VStr (lit "1"))
     /\ r !! lit "name" = ocean_body !! lit "name"
     /\ r !! lit "primary"
        = Some (default (VStr (lit "#4f46e5")) (ocean_body !! lit "primary"))
     /\ r !! lit "background_from"
        = Some (default (VStr (lit "#ffffff"))
                  (ocean_body !! lit "background_from"))
     /\ r !! lit "background_to"
        = Some (default (VStr (lit "#f5f3ff"))
                  (ocean_body !! lit "background_to"))
     /\ r !! lit "text"
        = Some (default (VStr (lit "#111827")) (ocean_body !! lit "text"))
     /\ r !! lit "mode"
        = Some (default (VStr (lit "light")) (ocean_body !! lit "mode"))
     /\ r !! lit "font"
        = Some (default (VStr (lit "Inter")) (ocean_body !! lit "font"))
     /\ dom r
        = ({[ lit "id"; lit "name"; lit "primary"; lit "background_from";
              lit "background_to"; lit "text"; lit "mode"; lit "font" ]}
           : gset str))
  /\ post_themes failing_store (VDict ocean_body) 0%nat
     = (Raised (HTTPException 500 DATABASE_NOT_AVAILABLE), 0%nat).
Proof.
  split.
  - apply (proj1 (theme_created_response counting_store ocean_body ocean_theme
                    0%nat ltac:(vm_compute; reflexivity))
             (VStr (lit "1")) 1%nat).
    vm_compute. reflexivity.
  - apply (proj2 (theme_created_response failing_store ocean_body ocean_theme
                    0%nat ltac:(vm_compute; reflexivity))
             (PyException DATABASE_NOT_AVAILABLE) 0%nat).
    vm_compute. reflexivity.
Defined.




(** ** [GET /test]: the rest of the response *)

(** Splits on every outcome the probe can meet. *)
Ltac probe_cases db :=
  destruct db as [[[[|]|?e] [?n|?e] [?listing|?e]]|].

(** X10: whatever the state of the database and of the environment, the
    response has the same six keys. *)
Theorem test_database_keys `{PyRuntime} db getenv :
  dom (test_database db getenv)
  = ({[ lit "backend"; lit "database"; lit "database_url";
        lit "database_name"; lit "connection_status"; lit "collections" ]}
     : gset str).
Proof. probe_cases db; vm_compute; reflexivity. Qed.

Lemma excerpt_length (l : str) : (length (firstn 50 l) <= 50)%nat.
Proof. rewrite length_firstn. lia. Qed.

Ltac database_field_tac :=
  split; [vm_compute; reflexivity|];
  split; [vm_compute; discriminate|];
  rewrite ?length_app;
  repeat match goal with
         | |- context [length (firstn 50 ?l)] =>
             generalize (excerpt_length l);
             generalize (length (firstn 50 l))
         end;
  intros; vm_compute; lia.

(** X11: the placeholder "Not Available" that the response starts with
    never reaches the caller: every path through the probe overwrites the
    field [database]; and the field is at most 75 code points long,
    because an error enters it by its first 50 only. *)
Theorem database_field_overwritten `{PyRuntime} db getenv :
  exists msg,
    test_database db getenv !! lit "database" = Some (VStr msg)
    /\ msg <> CROSS_MARK ++ lit " Not Available"
    /\ (length msg <= 75)%nat.
Proof.
  probe_cases db;
    first
      [ exists (CHECK_MARK ++ lit " Connected & Working");
        solve [database_field_tac]
      | exists (WARNING_SIGN ++ lit "  Available but not initialized");
        solve [database_field_tac]
      | match goal with
        | e : exn |- _ =>
            exists (WARNING_SIGN ++ lit "  Connected but Error: "
                    ++ firstn 50 (str_exn e));
            solve [database_field_tac]
        end
      | match goal with
        | e : exn |- _ =>
            exists (CROSS_MARK ++ lit " Error: " ++ firstn 50 (str_exn e));
            solve [database_field_tac]
        end ].
Qed.

Ltac name_assigned_tac :=
  unfold name_assigned; simpl;
  first [ left; reflexivity
        | right; split; [reflexivity | eexists; reflexivity] ].

Ltac name_not_assigned_tac H :=
  unfold name_assigned in H; simpl in H;
  destruct H as [H | [H [? ?]]]; discriminate.

(** X12: the field [collections] is a list of at most ten entries: the
    first ten that the database lists when the handle is there, the
    assignment of [database_name] goes through and the listing works,
    and the empty list otherwise. *)
Theorem collections_first_ten `{PyRuntime} db getenv :
  exists cols,
    test_database db getenv !! lit "collections" = Some (VList cols)
    /\ (length cols <= 10)%nat
    /\ (forall d listing,
          db = Some d -> name_assigned d ->
          db_list_collection_names d = Return listing ->
          cols = firstn 10 listing)
    /\ (db = None
        \/ (exists d, db = Some d
                      /\ (~ name_assigned d
                          \/ exists e, db_list_collection_names d = Raise e)) ->
        cols = []).
Proof.
  probe_cases db;
    first
      [ exists (firstn 10 listing);
        solve
          [ split; [vm_compute; reflexivity|];
            split; [rewrite length_firstn; lia|];
            split;
            [ intros d l' [= <-] _ Hl; simpl in Hl; injection Hl as <-;
              reflexivity
            | intros [Hn | (d & [= <-] & [Hna | [e' He]])];
              [ discriminate
              | exfalso; apply Hna; name_assigned_tac
              | discriminate ] ] ]
      | exists [];
        solve
          [ split; [vm_compute; reflexivity|];
            split; [simpl; lia|];
            split;
            [ intros d l' [= <-] Hna Hl; simpl in Hl;
              first [ discriminate | name_not_assigned_tac Hna ]
            | reflexivity ] ] ].
Qed.

Lemma collections_first_ten_witness :
  exists cols,
    test_database (Some nameless_db) (fun _ => None) !! lit "collections"
    = Some (VList cols)
    /\ (length cols <= 10)%nat
    /\ cols = firstn 10 [VStr (lit "a")].
Proof.
  destruct (collections_first_ten (Some nameless_db) (fun _ => None))
    as (cols & H1 & H2 & H3 & _).
  exists cols. split; [exact H1|]. split; [exact H2|].
  apply (H3 nameless_db [VStr (lit "a")]);
    [reflexivity | left; reflexivity | reflexivity].
Defined.

(** X13: [connection_status] reads "Connected" exactly when the handle is
    there and the assignment of [database_name] goes through, that is,
    [hasattr] finds no attribute [name] or the name can be read; also
    when the listing of the collections then fails.  Otherwise it reads
    "Not Connected". *)
Theorem connection_status_connected `{PyRuntime} db getenv :
  (test_database db getenv !! lit "connection_status"
   = Some (VStr (lit "Connected"))
   <-> exists d, db = Some d /\ name_assigned d)
  /\ (test_database db getenv !! lit "connection_status"
      = Some (VStr (lit "Connected"))
      \/ test_database db getenv !! lit "connection_status"
         = Some (VStr (lit "Not Connected"))).
Proof.
  probe_cases db; (split; [split|]);
    first
      [ solve [ intros _; eexists; split; [reflexivity | name_assigned_tac] ]
      | solve [ intros Hf; vm_compute in Hf; discriminate ]
      | solve [ intros _; vm_compute; reflexivity ]
      | solve [ intros (d & Hd & Hna); first [ discriminate Hd | injection Hd as <- ];
                name_not_assigned_tac Hna ]
      | solve [ left; vm_compute; reflexivity ]
      | solve [ right; vm_compute; reflexivity ] ].
Qed.

Lemma connection_status_connected_witness :
  test_database (Some nameless_db) (fun _ => None) !! lit "connection_status"
  = Some (VStr (lit "Connected")).
Proof.
  apply (proj2 (proj1 (connection_status_connected (Some nameless_db)
                         (fun _ => None)))).
  exists nameless_db. split; [reflexivity | left; reflexivity].
Defined.

Example working_db_probed :
  test_database (Some working_db) (fun _ => None) !! lit "collections"
  = Some (VList (firstn 10 twelve_collections))
  /\ test_database (Some working_db) (fun _ => None) !! lit "connection_status"
     = Some (VStr (lit "Connected")).
Proof. split; vm_compute; reflexivity. Qed.

Example nameless_db_probed :
  test_database (Some nameless_db) (fun _ => None)
  = {[ lit "backend" := VStr (CHECK_MARK ++ lit " Running");
       lit "database" := VStr (CHECK_MARK ++ lit " Connected & Working");
       lit "database_url" := VStr (CROSS_MARK ++ lit " Not Set");
       lit "database_name" := VStr (CROSS_MARK ++ lit " Not Set");
       lit "connection_status" := VStr (lit "Connected");
       lit "collections" := VList [VStr (lit "a")] ]}.
Proof. vm_compute. reflexivity. Qed.

Example broken_name_not_connected :
  test_database (Some broken_name_db) (fun _ => None)
  = {[ lit "backend" := VStr (CHECK_MARK ++ lit " Running");
       lit "database" :=
         VStr (CROSS_MARK ++ lit " Error: server selection failed");
       lit "database_url" := VStr (CROSS_MARK ++ lit " Not Set");
       lit "database_name" := VStr (CROSS_MARK ++ lit " Not Set");
       lit "connection_status" := VStr (lit "Not Connected");
       lit "collections" := VList [] ]}.
Proof. vm_compute. reflexivity. Qed.

(** ** The request model and the payload *)


Lemma or_auto_nonempty x : or_auto x <> [].
Proof.
  unfold or_auto. destruct x as [[|c s]|]; simpl; discriminate.
Qed.

(** X15: whatever call leaves the handler goes to the fixed URL with a
    timeout of 15, a [q] that holds a character that is not whitespace, a
    [source] that is not empty and the format ["text"]. *)
Theorem outbound_payload_well_formed `{PyRuntime} net body c :
  In c (snd (post_translate net body)) ->
  exists q source target,
    c = {| url := TRANSLATE_URL;
           data := [ (lit "q", q); (lit "source", source);
                     (lit "target", target); (lit "format", lit "text") ];
           timeout := 15 |}
    /\ forallb isspace q = false
    /\ source <> [].
Proof.
  intros Hc.
  destruct (TranslateRequest_validate body) as [errs|req] eqn:Hv.
  { unfold post_translate in Hc. rewrite Hv in Hc. destruct Hc. }
  rewrite (post_translate_valid _ _ _ Hv) in Hc. simpl in Hc.
  destruct (nonempty (strip (req_text req))) eqn:Hb.
  - rewrite (translate_calls _ _ _ Hb) in Hc. destruct Hc as [<-|[]].
    exists (req_text req), (or_auto (req_source req)), (req_target req).
    split; [reflexivity|]. split; [|apply or_auto_nonempty].
    destruct (forallb isspace (req_text req)) eqn:Hw; [|reflexivity].
    apply blank_iff in Hw. congruence.
  - rewrite (translate_blank _ _ _ Hb) in Hc. destruct Hc.
Qed.

Lemma outbound_payload_well_formed_witness :
  exists q source target,
    translate_call (request_of (lit "Hello"))
    = {| url := TRANSLATE_URL;
         data := [ (lit "q", q); (lit "source", source);
                   (lit "target", target); (lit "format", lit "text") ];
         timeout := 15 |}
    /\ forallb isspace q = false
    /\ source <> [].
Proof.
  apply (outbound_payload_well_formed refused hello_es).
  vm_compute. left. reflexivity.
Defined.
